(** * fmriprep.workflows.bold.reference: the raw BOLD reference workflow

    A shallow embedding of [init_raw_boldref_wf] together with the part of
    the nipype workflow machinery it relies on: the name check of workflows
    and nodes, nodes with an interface (input and output ports), preset
    inputs and execution hints, [Workflow.connect] in its list form with its
    checks and its networkx edge store, and an evaluator that runs the nodes
    of a workflow in order, passing values along edges. *)

From Stdlib Require Import String Ascii List ZArith QArith Bool Lia.
Import ListNotations.
Open Scope string_scope.
Open Scope list_scope.

(** ** Values and errors *)

(** Values travelling along edges: paths, integers, Python [None] and the
    boolean volume masks produced by the detector. *)
Inductive value : Type :=
| VStr (s : string)
| VInt (z : Z)
| VNone
| VMask (m : list bool).

(** The failures of the modelled code.  [InvalidName] is the [ValueError]
    of nipype's name setter, [DuplicateNodeName] the [IOError] of
    [Workflow._check_nodes], [AlreadyConnected] and [ConnectionsNotFound]
    the two exceptions of [Workflow.connect] (the latter lists
    ("in" | "out", node, port) triples). *)
Inductive error : Type :=
| InvalidName (nm : string)
| DuplicateNodeName
| AlreadyConnected (node port : string)
| ConnectionsNotFound (missing : list (string * string * string))
| MissingInput (node port : string)
| BadValue (node port : string)
| InvalidSkipCountError.

Inductive result (A : Type) : Type :=
| Ok (a : A)
| Err (e : error).
Arguments Ok {A} a.
Arguments Err {A} e.

Definition bind {A B} (r : result A) (k : A -> result B) : result B :=
  match r with
  | Ok a => k a
  | Err e => Err e
  end.

Notation "'let*' x ':=' c 'in' k" := (bind c (fun x => k))
  (at level 200, x ident, c at level 100, k at level 200).

(** Association lists keyed by field names, as nipype's trait containers. *)
Fixpoint lookup {A} (k : string) (l : list (string * A)) : option A :=
  match l with
  | [] => None
  | (k', v) :: l' => if String.eqb k k' then Some v else lookup k l'
  end.

Fixpoint assign {A} (k : string) (v : A) (l : list (string * A))
  : list (string * A) :=
  match l with
  | [] => [(k, v)]
  | (k', v') :: l' =>
      if String.eqb k k' then (k, v) :: l' else (k', v') :: assign k v l'
  end.

Definition mem_str (s : string) (l : list string) : bool :=
  existsb (String.eqb s) l.

Definition option_eqb {A} (eqb : A -> A -> bool) (o1 o2 : option A) : bool :=
  match o1, o2 with
  | Some x, Some y => eqb x y
  | None, None => true
  | _, _ => false
  end.

(** ** Names of workflows and nodes *)

(** [\w] of Python's [re] on a str, each byte read as the Latin-1 code point
    it encodes: the characters for which [str.isalnum()] holds, and [_]. *)
Definition is_word_char (c : ascii) : bool :=
  let n := nat_of_ascii c in
  (Nat.leb 48 n && Nat.leb n 57) || (Nat.leb 65 n && Nat.leb n 90)
  || Nat.eqb n 95 || (Nat.leb 97 n && Nat.leb n 122)
  || Nat.eqb n 170 || Nat.eqb n 178 || Nat.eqb n 179 || Nat.eqb n 181
  || Nat.eqb n 185 || Nat.eqb n 186 || (Nat.leb 188 n && Nat.leb n 190)
  || (Nat.leb 192 n && Nat.leb n 214) || (Nat.leb 216 n && Nat.leb n 246)
  || (Nat.leb 248 n && Nat.leb n 255).

Fixpoint all_name_chars (s : string) : bool :=
  match s with
  | EmptyString => true
  | String c s' => (is_word_char c || Nat.eqb (nat_of_ascii c) 45) && all_name_chars s'
  end.

(** Python's [$] also matches just before a final newline. *)
Definition strip_final_newline (s : string) : string :=
  match String.length s with
  | O => s
  | S k =>
      if String.eqb (substring k 1 s) (String (ascii_of_nat 10) EmptyString)
      then substring 0 k s else s
  end.

(** nipype's [EngineBase.name] setter:
    [if not name or not re.match(r"^[\w-]+$", name): raise ValueError]. *)
Definition valid_name (nm : string) : bool :=
  negb (String.eqb nm "")
  && negb (String.eqb (strip_final_newline nm) "")
  && all_name_chars (strip_final_newline nm).

(** ** Interfaces and nodes *)

(** The interfaces instantiated by the module.  [FunctionInterface] wraps a
    named Python function with the input names taken from its signature and
    the declared [output_names]. *)
Inductive interface : Type :=
| IdentityInterface (fields : list string)
| FunctionInterface (function : string) (input_names output_names : list string)
| ValidateImage
| NonsteadyStatesDetector
| RobustAverage.

(** Input ports, as declared by the interfaces' input specs (niworkflows'
    [ValidateImage], [NonsteadyStatesDetector] and [RobustAverage]).
    [Node._check_inputs] and [_check_outputs] test [hasattr] on the trait
    containers: the model answers with the declared traits, leaving out the
    containers' own methods. *)
Definition input_ports (i : interface) : list string :=
  match i with
  | IdentityInterface fs => fs
  | FunctionInterface _ ins _ => ins
  | ValidateImage => ["in_file"]
  | NonsteadyStatesDetector =>
      ["in_file"; "nonnegative"; "n_volumes"; "zero_dummy_masked"]
  | RobustAverage => ["in_file"; "mc_method"; "nonnegative"; "t_mask"; "two_pass"]
  end.

(** Output ports, as declared by the interfaces' output specs. *)
Definition output_ports (i : interface) : list string :=
  match i with
  | IdentityInterface fs => fs
  | FunctionInterface _ _ outs => outs
  | ValidateImage => ["out_file"; "out_report"]
  | NonsteadyStatesDetector => ["t_mask"; "n_dummy"]
  | RobustAverage => ["out_file"; "out_volumes"; "out_drift"; "out_hmc"; "out_hmc_volumes"]
  end.

(** [Workflow.connect] skips its port checks for interfaces deriving from
    [nipype.interfaces.io.IOBase], as [IdentityInterface] and [Function]
    do. *)
Definition port_checked (i : interface) : bool :=
  match i with
  | IdentityInterface _ | FunctionInterface _ _ _ => false
  | _ => true
  end.

(** [pe.Node]: the identity of the Python object, its name, its interface,
    the inputs preset on it ([node.inputs.x = v]), the execution hints
    passed to the engine and the [_hierarchy] a workflow stamps on it when
    it first adds it.  Mutating a node ([set_input], [set_hierarchy]) keeps
    its identity. *)
Record node : Type := mkNode {
  oid : nat;
  name : string;
  iface : interface;
  inputs : list (string * value);
  mem_gb : Q;
  run_without_submitting : bool;
  hierarchy : option string
}.

(** nipype's default memory estimate of a node, in GB. *)
Definition NODE_DEFAULT_MEM_GB : Q := 1 # 5.

(** [pe.Node(i, name=nm, mem_gb=mem, run_without_submitting=rws)], creating
    the object [o]. *)
Definition pe_Node (o : nat) (i : interface) (nm : string) (mem : Q) (rws : bool)
    : result node :=
  if valid_name nm then Ok (mkNode o nm i [] mem rws None) else Err (InvalidName nm).

(** [node.inputs.port = v] on an input declared [traits.Any] (the inputs of
    [IdentityInterface] and [Function] nodes, the only ones this module
    presets). *)
Definition set_input (n : node) (port : string) (v : value) : node :=
  mkNode (oid n) (name n) (iface n) (assign port v (inputs n)) (mem_gb n)
    (run_without_submitting n) (hierarchy n).

Definition set_hierarchy (wf : string) (n : node) : node :=
  match hierarchy n with
  | None => mkNode (oid n) (name n) (iface n) (inputs n) (mem_gb n)
              (run_without_submitting n) (Some wf)
  | Some _ => n
  end.

(** Whether two nodes are the same Python object ([is]; nodes define no
    [__eq__], so networkx and [in] compare them by identity). *)
Definition node_eqb (a b : node) : bool := Nat.eqb (oid a) (oid b).

Definition has_node (ns : list node) (n : node) : bool := existsb (node_eqb n) ns.

(** ** Workflows *)

Record edge : Type := mkEdge {
  src : string;
  src_port : string;
  dst : string;
  dst_port : string
}.

(** A workflow: its name, its [__desc__], its nodes in the order the
    networkx graph received them, and the graph's edges, one entry per
    (source node, destination node) pair of objects with its ["connect"]
    list, in the order the pairs were created. *)
Record workflow : Type := mkWorkflow {
  wf_name : string;
  wf_desc : option string;
  wf_nodes : list node;
  wf_graph : list (nat * nat * list (string * string))
}.

(** [Workflow(name=nm)]; [LiterateWorkflow] starts with no description. *)
Definition Workflow (nm : string) : result workflow :=
  if valid_name nm then Ok (mkWorkflow nm None [] []) else Err (InvalidName nm).

(** [workflow.__desc__ = d]. *)
Definition set_desc (w : workflow) (d : string) : workflow :=
  mkWorkflow (wf_name w) (Some d) (wf_nodes w) (wf_graph w).

Definition name_of (ns : list node) (o : nat) : string :=
  match find (fun m => Nat.eqb (oid m) o) ns with
  | Some m => name m
  | None => ""
  end.

(** The port-level edges, named by their nodes, in networkx's order: by
    source node in node order, then by destination in the order the pair
    was created. *)
Definition wf_edges (w : workflow) : list edge :=
  flat_map
    (fun n =>
       flat_map
         (fun g => let '(s, d, cs) := g in
                   if Nat.eqb s (oid n)
                   then map (fun p => mkEdge (name n) (fst p)
                                        (name_of (wf_nodes w) d) (snd p)) cs
                   else [])
         (wf_graph w))
    (wf_nodes w).

Definition find_node (nm : string) (w : workflow) : option node :=
  find (fun n => String.eqb (name n) nm) (wf_nodes w).

(** One element of the list given to [Workflow.connect]:
    [(srcnode, destnode, [(source, dest), ...])]. *)
Definition connection : Type := (node * node * list (string * string))%type.

(** The nodes of the list not yet in the graph ([newnodes]). *)
Fixpoint new_nodes (graph acc : list node) (cs : list connection) : list node :=
  match cs with
  | [] => acc
  | (s, d, _) :: cs' =>
      let acc1 := if has_node acc s || has_node graph s then acc else acc ++ [s] in
      let acc2 := if has_node acc1 d || has_node graph d then acc1 else acc1 ++ [d] in
      new_nodes graph acc2 cs'
  end.

Fixpoint index_str (s : string) (l : list string) : option nat :=
  match l with
  | [] => None
  | x :: l' =>
      if String.eqb s x then Some 0%nat
      else match index_str s l' with Some i => Some (S i) | None => None end
  end.

(** [Workflow._check_nodes]: a new node whose name is already taken fails
    ([IndexError] for a name taken by another new node, lineage check for a
    name taken by a node of the graph). *)
Fixpoint check_nodes (wf : string) (names : list string)
    (lineage : list (option string)) (ns : list node) : result unit :=
  match ns with
  | [] => Ok tt
  | n :: ns' =>
      match index_str (name n) names with
      | Some i =>
          match nth_error lineage i with
          | None => Err DuplicateNodeName
          | Some h =>
              if option_eqb String.eqb h (hierarchy n)
                 || option_eqb String.eqb h (Some wf)
              then Err DuplicateNodeName
              else check_nodes wf names lineage ns'
          end
      | None => check_nodes wf (names ++ [name n]) lineage ns'
      end
  end.

(** Ports of [d] the graph already binds ([in_edges(destnode)]). *)
Definition graph_in_ports (w : workflow) (d : node) : list string :=
  if has_node (wf_nodes w) d
  then flat_map (fun g => let '(_, d', cs) := g in
                          if Nat.eqb d' (oid d) then map snd cs else [])
         (wf_graph w)
  else [].

(** The loop over the pairs of one element: an already connected
    destination port fails at once; unknown ports are collected. *)
Fixpoint check_pairs (s d : node) (connected : list string)
    (not_found : list (string * string * string)) (ps : list (string * string))
    : result (list string * list (string * string * string)) :=
  match ps with
  | [] => Ok (connected, not_found)
  | (sp, dp) :: ps' =>
      if mem_str dp connected then Err (AlreadyConnected (name d) dp)
      else
        let nf1 :=
          if port_checked (iface d) && negb (mem_str dp (input_ports (iface d)))
          then not_found ++ [("in", name d, dp)] else not_found in
        let nf2 :=
          if port_checked (iface s) && negb (String.eqb sp "")
             && negb (mem_str sp (output_ports (iface s)))
          then nf1 ++ [("out", name s, sp)] else nf1 in
        check_pairs s d (dp :: connected) nf2 ps'
  end.

Fixpoint lookup_node {A} (n : node) (l : list (node * A)) : option A :=
  match l with
  | [] => None
  | (m, a) :: l' => if node_eqb n m then Some a else lookup_node n l'
  end.

(** [connected_ports], keyed by destination node: ports bound in the graph
    and by earlier pairs of the list. *)
Fixpoint check_connections (w : workflow) (cports : list (node * list string))
    (not_found : list (string * string * string)) (cs : list connection)
    : result (list (string * string * string)) :=
  match cs with
  | [] => Ok not_found
  | (s, d, ps) :: cs' =>
      let prev := match lookup_node d cports with Some l => l | None => [] end in
      let cur := prev ++ graph_in_ports w d in
      let* r := check_pairs s d cur not_found ps in
      check_connections w ((d, fst r) :: cports) (snd r) cs'
  end.

(** networkx's [add_edges_from]: the ends are added if absent (source
    first), an existing pair gets the missing connections appended. *)
Definition add_graph_node (wf : string) (n : node) (ns : list node) : list node :=
  if has_node ns n then ns else ns ++ [set_hierarchy wf n].

Fixpoint add_pair (s d : nat) (ps : list (string * string))
    (g : list (nat * nat * list (string * string)))
    : list (nat * nat * list (string * string)) :=
  match g with
  | [] => [(s, d, ps)]
  | (s', d', cs) :: g' =>
      if Nat.eqb s s' && Nat.eqb d d'
      then (s', d', fold_left (fun acc p =>
                      if existsb (fun q => String.eqb (fst p) (fst q)
                                           && String.eqb (snd p) (snd q)) acc
                      then acc else acc ++ [p]) ps cs) :: g'
      else (s', d', cs) :: add_pair s d ps g'
  end.

Definition add_connection (w : workflow) (c : connection) : workflow :=
  let '(s, d, ps) := c in
  mkWorkflow (wf_name w) (wf_desc w)
    (add_graph_node (wf_name w) d (add_graph_node (wf_name w) s (wf_nodes w)))
    (add_pair (oid s) (oid d) ps (wf_graph w)).

(** [Workflow.connect(connection_list)]. *)
Definition connect (w : workflow) (cs : list connection) : result workflow :=
  let nn := new_nodes (wf_nodes w) [] cs in
  let* ok := check_nodes (wf_name w) (map name (wf_nodes w))
               (map hierarchy (wf_nodes w)) nn in
  let* nf := check_connections w [] [] cs in
  match nf with
  | [] => Ok (fold_left add_connection cs w)
  | _ => Err (ConnectionsNotFound nf)
  end.

(** ** The skip-count reconciliation *)

(** Modelled from the spec: [reconcile_skip_volumes], the function behind
    [pass_dummy_scans], which the module imports from niworkflows and which
    is not part of these sources.  A present, non-negative user value wins;
    a present negative one fails with [InvalidSkipCountError]; an absent one
    yields the detected count. *)
Definition reconcile_skip_volumes (user_declared : option Z)
    (algorithmically_detected : Z) : result Z :=
  match user_declared with
  | Some u => if (u <? 0)%Z then Err InvalidSkipCountError else Ok u
  | None => Ok algorithmically_detected
  end.

(** Modelled from the spec: [pass_dummy_scans(algo_dummy_scans, dummy_scans=None)]
    binds its arguments to [reconcile_skip_volumes]. *)
Definition pass_dummy_scans (algo_dummy_scans : Z) (dummy_scans : option Z)
    : result Z :=
  reconcile_skip_volumes dummy_scans algo_dummy_scans.

(** The input names nipype's [Function] reads off the signature of
    [pass_dummy_scans]. *)
Definition pass_dummy_scans_args : list string :=
  ["algo_dummy_scans"; "dummy_scans"].

(** ** [init_raw_boldref_wf] *)

Definition DEFAULT_MEMORY_MIN_GB : Q := 1 # 100.

(** Python's [str * bool]. *)
Definition str_mul (s : string) (b : bool) : string := if b then s else "".

Definition boldref_desc (multiecho : bool) : string :=
  ("First, a reference volume was generated"
   ++ str_mul " from the shortest echo of the BOLD run" multiecho
   ++ ",
using a custom methodology of *fMRIPrep*, for use in head motion correction.
")%string.

Definition init_raw_boldref_wf (bold_file : option string) (multiecho : bool)
    (wf_name : string) : result workflow :=
  let* workflow := Workflow wf_name in
  let workflow := set_desc workflow (boldref_desc multiecho) in
  let* inputnode :=
    pe_Node 1 (IdentityInterface ["bold_file"; "dummy_scans"]) "inputnode"
      NODE_DEFAULT_MEM_GB false in
  let* outputnode :=
    pe_Node 2 (IdentityInterface ["bold_file"; "boldref"; "skip_vols"; "algo_dummy_scans"])
      "outputnode" NODE_DEFAULT_MEM_GB false in
  (* Simplify manually setting input image *)
  let inputnode :=
    match bold_file with
    | Some f => set_input inputnode "bold_file" (VStr f)
    | None => inputnode
    end in
  let* val_bold := pe_Node 3 ValidateImage "val_bold" DEFAULT_MEMORY_MIN_GB false in
  let* get_dummy := pe_Node 4 NonsteadyStatesDetector "get_dummy" NODE_DEFAULT_MEM_GB false in
  let* gen_avg := pe_Node 5 RobustAverage "gen_avg" 1 false in
  let* calc_dummy_scans :=
    pe_Node 6 (FunctionInterface "pass_dummy_scans" pass_dummy_scans_args ["skip_vols_num"])
      "calc_dummy_scans" DEFAULT_MEMORY_MIN_GB true in
  connect workflow [
    (inputnode, val_bold, [("bold_file", "in_file")]);
    (inputnode, get_dummy, [("bold_file", "in_file")]);
    (inputnode, calc_dummy_scans, [("dummy_scans", "dummy_scans")]);
    (val_bold, gen_avg, [("out_file", "in_file")]);
    (get_dummy, gen_avg, [("t_mask", "t_mask")]);
    (get_dummy, calc_dummy_scans, [("n_dummy", "algo_dummy_scans")]);
    (val_bold, outputnode, [("out_file", "bold_file")]);
    (calc_dummy_scans, outputnode, [("skip_vols_num", "skip_vols")]);
    (gen_avg, outputnode, [("out_file", "boldref")]);
    (get_dummy, outputnode, [("n_dummy", "algo_dummy_scans")])
  ].

(** ** Running a workflow *)

(** [wf.inputs.<node>.<port> = v]: preset an input of a node of a built
    workflow. *)
Definition set_wf_input (w : workflow) (nm port : string) (v : value) : workflow :=
  mkWorkflow (wf_name w) (wf_desc w)
    (map (fun n => if String.eqb (name n) nm then set_input n port v else n)
       (wf_nodes w))
    (wf_graph w).

(** Outputs computed so far, per node name. *)
Definition env : Type := list (string * list (string * value)).

(** A node's inputs: its presets, overridden by the values its incoming
    edges carry, in edge order (an upstream output left undefined sets
    nothing). *)
Definition gather (es : list edge) (e : env) (n : node) : list (string * value) :=
  fold_left
    (fun acc ed =>
       if String.eqb (dst ed) (name n) then
         match lookup (src ed) e with
         | Some outs =>
             match lookup (src_port ed) outs with
             | Some v => assign (dst_port ed) v acc
             | None => acc
             end
         | None => acc
         end
       else acc)
    es (inputs n).

Section Run.

(** The semantics of the external collaborator interfaces (validation,
    non-steady-state detection, robust averaging): a map from inputs to
    outputs. *)
Variable collab : interface -> list (string * value) -> list (string * value).

(** A Python [int or None] argument. *)
Definition opt_int (nm port : string) (v : option value) : result (option Z) :=
  match v with
  | None | Some VNone => Ok None
  | Some (VInt z) => Ok (Some z)
  | Some _ => Err (BadValue nm port)
  end.

Definition run_function (nm fn : string) (ins : list (string * value))
    : result (list (string * value)) :=
  if String.eqb fn "pass_dummy_scans" then
    match lookup "algo_dummy_scans" ins with
    | Some (VInt a) =>
        let* d := opt_int nm "dummy_scans" (lookup "dummy_scans" ins) in
        let* r := pass_dummy_scans a d in
        Ok [("skip_vols_num", VInt r)]
    | Some _ => Err (BadValue nm "algo_dummy_scans")
    | None => Err (MissingInput nm "algo_dummy_scans")
    end
  else Err (MissingInput nm fn).

Definition run_node (n : node) (ins : list (string * value))
    : result (list (string * value)) :=
  match iface n with
  | IdentityInterface fs =>
      Ok (fold_right
            (fun f acc => match lookup f ins with
                          | Some v => (f, v) :: acc
                          | None => acc
                          end) [] fs)
  | FunctionInterface fn _ _ => run_function (name n) fn ins
  | i => Ok (collab i ins)
  end.

Fixpoint run_nodes (es : list edge) (ns : list node) (e : env) : result env :=
  match ns with
  | [] => Ok e
  | n :: ns' =>
      let* outs := run_node n (gather es e n) in
      run_nodes es ns' (e ++ [(name n, outs)])
  end.

(** The outputs of a run: what the [outputnode] publishes. *)
Definition run (w : workflow) : result (list (string * value)) :=
  let* e := run_nodes (wf_edges w) (wf_nodes w) [] in
  match lookup "outputnode" e with
  | Some outs => Ok outs
  | None => Err (MissingInput "outputnode" "")
  end.

End Run.

(** ** A concrete run *)

(** A detector reporting 4 non-steady-state volumes, with a validator and an
    averager returning fixed paths. *)
Definition scenario_collab (i : interface) (ins : list (string * value))
    : list (string * value) :=
  match i with
  | ValidateImage => [("out_file", VStr "scan_valid.ext")]
  | NonsteadyStatesDetector =>
      [("t_mask", VMask [false; false; false; false; true; true]);
       ("n_dummy", VInt 4)]
  | RobustAverage => [("out_file", VStr "scan_ref.ext")]
  | _ => []
  end.

(** [o] assigned to [k] when present. *)
Definition opt_assign (k : string) (o : option value) (l : list (string * value))
    : list (string * value) :=
  match o with
  | Some v => assign k v l
  | None => l
  end.

(** ** Graph predicates *)

(** Directed paths along edges. *)
Inductive reach (es : list edge) : string -> string -> Prop :=
| reach_edge e : In e es -> reach es (src e) (dst e)
| reach_trans a b c : reach es a b -> reach es b c -> reach es a c.

(** A node doing real computation, as opposed to a passthrough boundary. *)
Definition computing (n : node) : bool :=
  match iface n with
  | IdentityInterface _ => false
  | _ => true
  end.

(** Position of a node in the node list of a workflow. *)
Fixpoint index_of (nm : string) (ns : list node) : nat :=
  match ns with
  | [] => 0
  | n :: ns' => if String.eqb (name n) nm then 0 else S (index_of nm ns')
  end.

(** ** The shape [init_raw_boldref_wf] builds *)

Definition boldref_nodes (bold_file : option string) (nm : string) : list node :=
  [ mkNode 1 "inputnode" (IdentityInterface ["bold_file"; "dummy_scans"])
      match bold_file with Some f => [("bold_file", VStr f)] | None => [] end
      NODE_DEFAULT_MEM_GB false (Some nm);
    mkNode 3 "val_bold" ValidateImage [] DEFAULT_MEMORY_MIN_GB false (Some nm);
    mkNode 4 "get_dummy" NonsteadyStatesDetector [] NODE_DEFAULT_MEM_GB false (Some nm);
    mkNode 6 "calc_dummy_scans"
      (FunctionInterface "pass_dummy_scans" pass_dummy_scans_args ["skip_vols_num"])
      [] DEFAULT_MEMORY_MIN_GB true (Some nm);
    mkNode 5 "gen_avg" RobustAverage [] 1 false (Some nm);
    mkNode 2 "outputnode"
      (IdentityInterface ["bold_file"; "boldref"; "skip_vols"; "algo_dummy_scans"])
      [] NODE_DEFAULT_MEM_GB false (Some nm) ].

(** Its edge store; the node objects are numbered in creation order:
    1 [inputnode], 2 [outputnode], 3 [val_bold], 4 [get_dummy], 5 [gen_avg],
    6 [calc_dummy_scans]. *)
Definition boldref_graph : list (nat * nat * list (string * string)) :=
  [ (1, 3, [("bold_file", "in_file")]);
    (1, 4, [("bold_file", "in_file")]);
    (1, 6, [("dummy_scans", "dummy_scans")]);
    (3, 5, [("out_file", "in_file")]);
    (4, 5, [("t_mask", "t_mask")]);
    (4, 6, [("n_dummy", "algo_dummy_scans")]);
    (3, 2, [("out_file", "bold_file")]);
    (6, 2, [("skip_vols_num", "skip_vols")]);
    (5, 2, [("out_file", "boldref")]);
    (4, 2, [("n_dummy", "algo_dummy_scans")]) ]%nat.

Definition boldref_wf (bold_file : option string) (multiecho : bool) (nm : string)
    : workflow :=
  mkWorkflow nm (Some (boldref_desc multiecho)) (boldref_nodes bold_file nm)
    boldref_graph.

(** The port-level edges of that graph, in networkx's order. *)
Definition boldref_edges : list edge :=
  [ mkEdge "inputnode" "bold_file" "val_bold" "in_file";
    mkEdge "inputnode" "bold_file" "get_dummy" "in_file";
    mkEdge "inputnode" "dummy_scans" "calc_dummy_scans" "dummy_scans";
    mkEdge "val_bold" "out_file" "gen_avg" "in_file";
    mkEdge "val_bold" "out_file" "outputnode" "bold_file";
    mkEdge "get_dummy" "t_mask" "gen_avg" "t_mask";
    mkEdge "get_dummy" "n_dummy" "calc_dummy_scans" "algo_dummy_scans";
    mkEdge "get_dummy" "n_dummy" "outputnode" "algo_dummy_scans";
    mkEdge "calc_dummy_scans" "skip_vols_num" "outputnode" "skip_vols";
    mkEdge "gen_avg" "out_file" "outputnode" "boldref" ].

Lemma init_raw_boldref_wf_eq (bold_file : option string) (multiecho : bool)
    (nm : string) (Hnm : valid_name nm = true) :
  init_raw_boldref_wf bold_file multiecho nm = Ok (boldref_wf bold_file multiecho nm).
Proof.
  unfold init_raw_boldref_wf, Workflow. rewrite Hnm.
  destruct bold_file; vm_compute; reflexivity.
Qed.

Lemma boldref_wf_edges (bold_file : option string) (multiecho : bool) (nm : string) :
  wf_edges (boldref_wf bold_file multiecho nm) = boldref_edges.
Proof. destruct bold_file; reflexivity. Qed.

Lemma boldref_wf_input_edges (bold_file : option string) (multiecho : bool)
    (nm port : string) (v : value) :
  wf_edges (set_wf_input (boldref_wf bold_file multiecho nm) "inputnode" port v)
  = boldref_edges.
Proof. destruct bold_file; reflexivity. Qed.

Lemma reach_rank (es : list edge) (f : string -> nat) :
  (forall e, In e es -> f (src e) < f (dst e))%nat ->
  forall a b, reach es a b -> (f a < f b)%nat.
Proof.
  intros Hf a b Hr; induction Hr as [e He | a b c _ IH1 _ IH2].
  - exact (Hf e He).
  - lia.
Qed.

(** Every edge of the built graph goes forward in its node list. *)
Lemma boldref_edges_forward (bold_file : option string) (nm : string) (e : edge) :
  In e boldref_edges ->
  (index_of (src e) (boldref_nodes bold_file nm)
   < index_of (dst e) (boldref_nodes bold_file nm))%nat.
Proof.
  intros He; simpl in He.
  repeat (destruct He as [<- | He]; [simpl; lia |]); contradiction.
Qed.

(** Case analysis on the collaborator outputs a run reads: each
    [lookup k (c i ins)] left open by evaluation is split into its two
    cases, innermost first. *)
Ltac split_lookups c :=
  repeat (match goal with
          | |- context [match ?t with Some _ => _ | None => _ end] =>
              lazymatch t with ?F ?A ?k (c ?i ?ins) => destruct t end
          end; lazy).

(** ** Claims *)

(** C1: a present, non-negative user value [u] is returned unchanged whatever
    the detected count (so [0] overrides detection); an absent one yields the
    detected count.  In every graph built under a valid name this function
    sits in the [calc_dummy_scans] node, fed by [inputnode.dummy_scans] and
    by the detector's [n_dummy]. *)
Theorem reconcile_user_declared_wins (u d : Z) (Hu : (0 <= u)%Z) :
  reconcile_skip_volumes (Some u) d = Ok u
  /\ reconcile_skip_volumes None d = Ok d
  /\ forall bold_file multiecho nm,
       valid_name nm = true ->
       exists w n,
         init_raw_boldref_wf bold_file multiecho nm = Ok w
         /\ find_node "calc_dummy_scans" w = Some n
         /\ iface n = FunctionInterface "pass_dummy_scans"
                        ["algo_dummy_scans"; "dummy_scans"] ["skip_vols_num"]
         /\ In (mkEdge "inputnode" "dummy_scans" "calc_dummy_scans" "dummy_scans")
               (wf_edges w)
         /\ In (mkEdge "get_dummy" "n_dummy" "calc_dummy_scans" "algo_dummy_scans")
               (wf_edges w).
Proof.
  split; [| split].
  - simpl. destruct (Z.ltb_spec u 0); [lia | reflexivity].
  - reflexivity.
  - intros bold_file multiecho nm Hnm.
    rewrite (init_raw_boldref_wf_eq _ _ _ Hnm).
    eexists; eexists; split; [reflexivity |].
    split; [reflexivity |].
    split; [reflexivity |]. rewrite boldref_wf_edges. simpl; tauto.
Qed.

Lemma reconcile_user_declared_wins_witness :
  (0 <= 0)%Z
  /\ reconcile_skip_volumes (Some 0%Z) 12 = Ok 0%Z
  /\ reconcile_skip_volumes (Some 5%Z) 12 = Ok 5%Z
  /\ reconcile_skip_volumes None 12 = Ok 12%Z
  /\ valid_name "raw_boldref_wf" = true
  /\ exists w n,
       init_raw_boldref_wf (Some "scan.ext") false "raw_boldref_wf" = Ok w
       /\ find_node "calc_dummy_scans" w = Some n
       /\ iface n = FunctionInterface "pass_dummy_scans"
                      ["algo_dummy_scans"; "dummy_scans"] ["skip_vols_num"]
       /\ In (mkEdge "inputnode" "dummy_scans" "calc_dummy_scans" "dummy_scans")
             (wf_edges w)
       /\ In (mkEdge "get_dummy" "n_dummy" "calc_dummy_scans" "algo_dummy_scans")
             (wf_edges w).
Proof.
  split; [lia |].
  split; [apply (reconcile_user_declared_wins 0 12); lia |].
  split; [apply (reconcile_user_declared_wins 5 12); lia |].
  split; [apply (reconcile_user_declared_wins 0 12); lia |].
  split; [reflexivity |].
  refine (proj2 (proj2 (reconcile_user_declared_wins 0 12 _))
            (Some "scan.ext") false "raw_boldref_wf" eq_refl).
  lia.
Defined.

(** C3: a present negative user value fails with [InvalidSkipCountError],
    whatever the detected count, e.g. [reconcile_skip_volumes(-1, 12)];
    and that is the only failure the reconciliation has. *)
Theorem reconcile_negative_fails (u d : Z) (Hu : (u < 0)%Z) :
  reconcile_skip_volumes (Some u) d = Err InvalidSkipCountError
  /\ reconcile_skip_volumes (Some (-1)%Z) 12 = Err InvalidSkipCountError
  /\ forall x d' e,
       reconcile_skip_volumes x d' = Err e ->
       e = InvalidSkipCountError /\ exists v, x = Some v /\ (v < 0)%Z.
Proof.
  split; [| split].
  - simpl. destruct (Z.ltb_spec u 0); [reflexivity | lia].
  - reflexivity.
  - intros [v|] d' e H; simpl in H; [| discriminate].
    destruct (Z.ltb_spec v 0); inversion H; subst.
    split; [reflexivity | exists v; split; [reflexivity | assumption]].
Qed.

Lemma reconcile_negative_fails_witness :
  (-1 < 0)%Z /\ reconcile_skip_volumes (Some (-1)%Z) 12 = Err InvalidSkipCountError.
Proof.
  split; [lia | apply (reconcile_negative_fails (-1) 12); lia].
Defined.

(** C2 (as written): the detector's only input is the validator's output. *)
Definition detector_fed_by_validator (w : workflow) : Prop :=
  forall e, In e (wf_edges w) -> dst e = "get_dummy" -> src e = "val_bold".

(** C2: counterexample, the default workflow feeds the detector from
    [inputnode.bold_file]. *)
Lemma detector_fed_by_validator_fails :
  exists w, init_raw_boldref_wf None false "raw_boldref_wf" = Ok w
            /\ ~ detector_fed_by_validator w.
Proof.
  rewrite (init_raw_boldref_wf_eq None false "raw_boldref_wf" eq_refl).
  eexists; split; [reflexivity |].
  intros H.
  specialize (H (mkEdge "inputnode" "bold_file" "get_dummy" "in_file")).
  rewrite boldref_wf_edges in H.
  simpl in H. discriminate (H (or_intror (or_introl eq_refl)) eq_refl).
Qed.

(** C2 (amended): under a valid name, the validator and the detector both
    read the raw [inputnode.bold_file] (the detector's only input edge); the
    averager reads the validator's [out_file] and the detector's
    [t_mask]. *)
Theorem detector_reads_raw_bold (bold_file : option string) (multiecho : bool)
    (nm : string) (Hnm : valid_name nm = true) :
  exists w,
    init_raw_boldref_wf bold_file multiecho nm = Ok w
    /\ filter (fun e => String.eqb (dst e) "get_dummy") (wf_edges w)
       = [mkEdge "inputnode" "bold_file" "get_dummy" "in_file"]
    /\ filter (fun e => String.eqb (dst e) "val_bold") (wf_edges w)
       = [mkEdge "inputnode" "bold_file" "val_bold" "in_file"]
    /\ filter (fun e => String.eqb (dst e) "gen_avg") (wf_edges w)
       = [mkEdge "val_bold" "out_file" "gen_avg" "in_file";
          mkEdge "get_dummy" "t_mask" "gen_avg" "t_mask"].
Proof.
  rewrite (init_raw_boldref_wf_eq _ _ _ Hnm). eexists; split; [reflexivity |].
  rewrite boldref_wf_edges. repeat split.
Qed.

Lemma detector_reads_raw_bold_witness :
  valid_name "raw_boldref_wf" = true
  /\ exists w,
    init_raw_boldref_wf (Some "scan.ext") false "raw_boldref_wf" = Ok w
    /\ filter (fun e => String.eqb (dst e) "get_dummy") (wf_edges w)
       = [mkEdge "inputnode" "bold_file" "get_dummy" "in_file"]
    /\ filter (fun e => String.eqb (dst e) "val_bold") (wf_edges w)
       = [mkEdge "inputnode" "bold_file" "val_bold" "in_file"]
    /\ filter (fun e => String.eqb (dst e) "gen_avg") (wf_edges w)
       = [mkEdge "val_bold" "out_file" "gen_avg" "in_file";
          mkEdge "get_dummy" "t_mask" "gen_avg" "t_mask"].
Proof.
  split; [reflexivity |].
  exact (detector_reads_raw_bold (Some "scan.ext") false "raw_boldref_wf" eq_refl).
Defined.

Ltac finish_bound :=
  split; [rewrite boldref_wf_edges; simpl; tauto |];
  split; [reflexivity |]; split; [reflexivity |];
  split; [reflexivity | reflexivity].

(** C5: in every graph built under a valid name, [inputnode] exposes exactly
    [bold_file] and [dummy_scans], [outputnode] exactly the four declared
    outputs, and each of these is bound by an edge from a computing
    (non-boundary) node. *)
Theorem boundary_ports_bound (bold_file : option string) (multiecho : bool)
    (nm : string) (Hnm : valid_name nm = true) :
  exists w i o,
    init_raw_boldref_wf bold_file multiecho nm = Ok w
    /\ find_node "inputnode" w = Some i
    /\ find_node "outputnode" w = Some o
    /\ output_ports (iface i) = ["bold_file"; "dummy_scans"]
    /\ input_ports (iface o) = ["bold_file"; "boldref"; "skip_vols"; "algo_dummy_scans"]
    /\ forall p, In p (input_ports (iface o)) ->
         exists e s, In e (wf_edges w) /\ dst e = "outputnode" /\ dst_port e = p
                     /\ find_node (src e) w = Some s /\ computing s = true.
Proof.
  rewrite (init_raw_boldref_wf_eq _ _ _ Hnm).
  do 3 eexists. do 5 (split; [reflexivity |]).
  intros p Hp; simpl in Hp.
  destruct Hp as [<- | [<- | [<- | [<- | []]]]].
  - exists (mkEdge "val_bold" "out_file" "outputnode" "bold_file");
      eexists; finish_bound.
  - exists (mkEdge "gen_avg" "out_file" "outputnode" "boldref");
      eexists; finish_bound.
  - exists (mkEdge "calc_dummy_scans" "skip_vols_num" "outputnode" "skip_vols");
      eexists; finish_bound.
  - exists (mkEdge "get_dummy" "n_dummy" "outputnode" "algo_dummy_scans");
      eexists; finish_bound.
Qed.

Lemma boundary_ports_bound_witness :
  valid_name "raw_boldref_wf" = true
  /\ exists w i o,
    init_raw_boldref_wf None true "raw_boldref_wf" = Ok w
    /\ find_node "inputnode" w = Some i
    /\ find_node "outputnode" w = Some o
    /\ output_ports (iface i) = ["bold_file"; "dummy_scans"]
    /\ input_ports (iface o) = ["bold_file"; "boldref"; "skip_vols"; "algo_dummy_scans"]
    /\ forall p, In p (input_ports (iface o)) ->
         exists e s, In e (wf_edges w) /\ dst e = "outputnode" /\ dst_port e = p
                     /\ find_node (src e) w = Some s /\ computing s = true.
Proof.
  split; [reflexivity |].
  exact (boundary_ports_bound None true "raw_boldref_wf" eq_refl).
Defined.

(** C6: in every graph built under a valid name, each declared output port
    is reached by a directed path from [inputnode], and no node lies on a
    directed cycle. *)
Theorem outputs_reachable_acyclic (bold_file : option string) (multiecho : bool)
    (nm : string) (Hnm : valid_name nm = true) :
  exists w o,
    init_raw_boldref_wf bold_file multiecho nm = Ok w
    /\ find_node "outputnode" w = Some o
    /\ (forall p, In p (input_ports (iface o)) ->
          exists e, In e (wf_edges w) /\ dst e = "outputnode" /\ dst_port e = p
                    /\ reach (wf_edges w) "inputnode" (src e))
    /\ (forall n, ~ reach (wf_edges w) n n).
Proof.
  rewrite (init_raw_boldref_wf_eq _ _ _ Hnm).
  do 2 eexists. split; [reflexivity |]. split; [reflexivity |].
  rewrite boldref_wf_edges. split.
  - assert (Hin : forall e, In e boldref_edges -> reach boldref_edges (src e) (dst e))
      by (intros; apply reach_edge; assumption).
    assert (Hv : reach boldref_edges "inputnode" "val_bold")
      by (apply (Hin (mkEdge "inputnode" "bold_file" "val_bold" "in_file")); simpl; tauto).
    assert (Hg : reach boldref_edges "inputnode" "get_dummy")
      by (apply (Hin (mkEdge "inputnode" "bold_file" "get_dummy" "in_file")); simpl; tauto).
    assert (Hc : reach boldref_edges "inputnode" "calc_dummy_scans")
      by (apply (Hin (mkEdge "inputnode" "dummy_scans" "calc_dummy_scans" "dummy_scans"));
          simpl; tauto).
    assert (Ha : reach boldref_edges "inputnode" "gen_avg").
    { apply (reach_trans _ _ "val_bold"); [exact Hv |].
      apply (Hin (mkEdge "val_bold" "out_file" "gen_avg" "in_file")); simpl; tauto. }
    intros p Hp; simpl in Hp.
    destruct Hp as [<- | [<- | [<- | [<- | []]]]].
    + exists (mkEdge "val_bold" "out_file" "outputnode" "bold_file").
      split; [simpl; tauto |]. do 2 (split; [reflexivity |]).
      exact Hv.
    + exists (mkEdge "gen_avg" "out_file" "outputnode" "boldref").
      split; [simpl; tauto |]. do 2 (split; [reflexivity |]).
      exact Ha.
    + exists (mkEdge "calc_dummy_scans" "skip_vols_num" "outputnode" "skip_vols").
      split; [simpl; tauto |]. do 2 (split; [reflexivity |]).
      exact Hc.
    + exists (mkEdge "get_dummy" "n_dummy" "outputnode" "algo_dummy_scans").
      split; [simpl; tauto |]. do 2 (split; [reflexivity |]).
      exact Hg.
  - intros n Hn.
    pose proof (reach_rank boldref_edges
                  (fun x => index_of x (boldref_nodes bold_file nm))
                  (boldref_edges_forward bold_file nm) n n Hn).
    lia.
Qed.

Lemma outputs_reachable_acyclic_witness :
  valid_name "raw_boldref_wf" = true
  /\ exists w o,
    init_raw_boldref_wf (Some "scan.ext") false "raw_boldref_wf" = Ok w
    /\ find_node "outputnode" w = Some o
    /\ (forall p, In p (input_ports (iface o)) ->
          exists e, In e (wf_edges w) /\ dst e = "outputnode" /\ dst_port e = p
                    /\ reach (wf_edges w) "inputnode" (src e))
    /\ (forall n, ~ reach (wf_edges w) n n).
Proof.
  split; [reflexivity |].
  exact (outputs_reachable_acyclic (Some "scan.ext") false "raw_boldref_wf" eq_refl).
Defined.

(** C7: in every graph built under a valid name no (target node, target
    port) pair is the target of two edges, while an output port may fan
    out: the validator's [out_file] feeds both the averager and
    [outputnode]. *)
Theorem no_fan_in_fan_out (bold_file : option string) (multiecho : bool)
    (nm : string) (Hnm : valid_name nm = true) :
  exists w,
    init_raw_boldref_wf bold_file multiecho nm = Ok w
    /\ NoDup (map (fun e => (dst e, dst_port e)) (wf_edges w))
    /\ In (mkEdge "val_bold" "out_file" "gen_avg" "in_file") (wf_edges w)
    /\ In (mkEdge "val_bold" "out_file" "outputnode" "bold_file") (wf_edges w).
Proof.
  rewrite (init_raw_boldref_wf_eq _ _ _ Hnm). eexists; split; [reflexivity |].
  rewrite boldref_wf_edges.
  split; [| simpl; tauto].
  simpl. repeat constructor; simpl; intuition discriminate.
Qed.

Lemma no_fan_in_fan_out_witness :
  valid_name "raw_boldref_wf" = true
  /\ exists w,
    init_raw_boldref_wf (Some "scan.ext") true "raw_boldref_wf" = Ok w
    /\ NoDup (map (fun e => (dst e, dst_port e)) (wf_edges w))
    /\ In (mkEdge "val_bold" "out_file" "gen_avg" "in_file") (wf_edges w)
    /\ In (mkEdge "val_bold" "out_file" "outputnode" "bold_file") (wf_edges w).
Proof.
  split; [reflexivity |].
  exact (no_fan_in_fan_out (Some "scan.ext") true "raw_boldref_wf" eq_refl).
Defined.

(** C8: building under a valid name with [multiecho] true or false gives
    the same name, nodes (with their ports, presets and hints), edge store
    and edges; only the description string differs. *)
Theorem multiecho_only_desc (bold_file : option string) (nm : string)
    (Hnm : valid_name nm = true) :
  exists w1 w2,
    init_raw_boldref_wf bold_file true nm = Ok w1
    /\ init_raw_boldref_wf bold_file false nm = Ok w2
    /\ wf_name w1 = wf_name w2
    /\ wf_nodes w1 = wf_nodes w2
    /\ wf_graph w1 = wf_graph w2
    /\ wf_edges w1 = wf_edges w2
    /\ wf_desc w1 = Some (boldref_desc true)
    /\ wf_desc w2 = Some (boldref_desc false)
    /\ wf_desc w1 <> wf_desc w2.
Proof.
  rewrite !(init_raw_boldref_wf_eq _ _ _ Hnm). do 2 eexists.
  do 8 (split; [reflexivity |]).
  simpl. discriminate.
Qed.

Lemma multiecho_only_desc_witness :
  valid_name "raw_boldref_wf" = true
  /\ exists w1 w2,
    init_raw_boldref_wf None true "raw_boldref_wf" = Ok w1
    /\ init_raw_boldref_wf None false "raw_boldref_wf" = Ok w2
    /\ wf_name w1 = wf_name w2
    /\ wf_nodes w1 = wf_nodes w2
    /\ wf_graph w1 = wf_graph w2
    /\ wf_edges w1 = wf_edges w2
    /\ wf_desc w1 = Some (boldref_desc true)
    /\ wf_desc w2 = Some (boldref_desc false)
    /\ wf_desc w1 <> wf_desc w2.
Proof.
  split; [reflexivity |].
  exact (multiecho_only_desc None "raw_boldref_wf" eq_refl).
Defined.

(** C9: under a valid name, passing [bold_file = f] builds exactly the graph
    built without it, with [inputnode.bold_file] then preset to [f];
    without it the port carries no preset. *)
Theorem bold_file_is_preset (f : string) (multiecho : bool) (nm : string)
    (Hnm : valid_name nm = true) :
  exists w1 w2 i,
    init_raw_boldref_wf (Some f) multiecho nm = Ok w1
    /\ init_raw_boldref_wf None multiecho nm = Ok w2
    /\ w1 = set_wf_input w2 "inputnode" "bold_file" (VStr f)
    /\ find_node "inputnode" w2 = Some i
    /\ lookup "bold_file" (inputs i) = None
    /\ find_node "inputnode" w1 = Some (set_input i "bold_file" (VStr f)).
Proof.
  rewrite !(init_raw_boldref_wf_eq _ _ _ Hnm). do 3 eexists.
  do 5 (split; [reflexivity |]). reflexivity.
Qed.

Lemma bold_file_is_preset_witness :
  valid_name "raw_boldref_wf" = true
  /\ exists w1 w2 i,
    init_raw_boldref_wf (Some "scan.ext") false "raw_boldref_wf" = Ok w1
    /\ init_raw_boldref_wf None false "raw_boldref_wf" = Ok w2
    /\ w1 = set_wf_input w2 "inputnode" "bold_file" (VStr "scan.ext")
    /\ find_node "inputnode" w2 = Some i
    /\ lookup "bold_file" (inputs i) = None
    /\ find_node "inputnode" w1 = Some (set_input i "bold_file" (VStr "scan.ext")).
Proof.
  split; [reflexivity |].
  exact (bold_file_is_preset "scan.ext" false "raw_boldref_wf" eq_refl).
Defined.

(** C10: under a valid name construction is deterministic: the result is
    fixed by the arguments, with the execution hints of the source:
    0.01 GB on [val_bold] and [calc_dummy_scans], 1 GB on [gen_avg], and
    [calc_dummy_scans] run without submitting. *)
Theorem init_deterministic (bold_file : option string) (multiecho : bool)
    (nm : string) (Hnm : valid_name nm = true) :
  exists w v c g,
    init_raw_boldref_wf bold_file multiecho nm = Ok w
    /\ (forall w', init_raw_boldref_wf bold_file multiecho nm = Ok w' -> w' = w)
    /\ map name (wf_nodes w)
       = ["inputnode"; "val_bold"; "get_dummy"; "calc_dummy_scans"; "gen_avg";
          "outputnode"]
    /\ wf_edges w = boldref_edges
    /\ wf_desc w = Some (boldref_desc multiecho)
    /\ find_node "val_bold" w = Some v
    /\ find_node "calc_dummy_scans" w = Some c
    /\ find_node "gen_avg" w = Some g
    /\ mem_gb v = DEFAULT_MEMORY_MIN_GB
    /\ mem_gb c = DEFAULT_MEMORY_MIN_GB
    /\ run_without_submitting c = true
    /\ mem_gb g = 1%Q
    /\ DEFAULT_MEMORY_MIN_GB = (1 # 100)%Q.
Proof.
  rewrite (init_raw_boldref_wf_eq _ _ _ Hnm). do 4 eexists.
  split; [reflexivity |].
  split; [intros w' H; inversion H; reflexivity |].
  split; [reflexivity |].
  split; [apply boldref_wf_edges |].
  repeat split.
Qed.

Lemma init_deterministic_witness :
  valid_name "raw_boldref_wf" = true
  /\ exists w v c g,
    init_raw_boldref_wf (Some "scan.ext") false "raw_boldref_wf" = Ok w
    /\ (forall w', init_raw_boldref_wf (Some "scan.ext") false "raw_boldref_wf" = Ok w'
                   -> w' = w)
    /\ map name (wf_nodes w)
       = ["inputnode"; "val_bold"; "get_dummy"; "calc_dummy_scans"; "gen_avg";
          "outputnode"]
    /\ wf_edges w = boldref_edges
    /\ wf_desc w = Some (boldref_desc false)
    /\ find_node "val_bold" w = Some v
    /\ find_node "calc_dummy_scans" w = Some c
    /\ find_node "gen_avg" w = Some g
    /\ mem_gb v = DEFAULT_MEMORY_MIN_GB
    /\ mem_gb c = DEFAULT_MEMORY_MIN_GB
    /\ run_without_submitting c = true
    /\ mem_gb g = 1%Q
    /\ DEFAULT_MEMORY_MIN_GB = (1 # 100)%Q.
Proof.
  split; [reflexivity |].
  exact (init_deterministic (Some "scan.ext") false "raw_boldref_wf" eq_refl).
Defined.

(** C4: under a valid name, whatever the collaborators compute, as long as
    the detector reports [n_dummy = d]: feeding [dummy_scans = None]
    publishes [skip_vols = d], feeding a non-negative override [u]
    publishes [skip_vols = u], and in both cases [algo_dummy_scans] carries
    the detector's [d] unchanged. *)
Theorem algo_dummy_scans_reported
    (collab : interface -> list (string * value) -> list (string * value))
    (bold_file : option string) (multiecho : bool) (nm : string)
    (d : Z) (dummy_scans : option Z)
    (Hnm : valid_name nm = true)
    (Hdet : forall ins, lookup "n_dummy" (collab NonsteadyStatesDetector ins)
                        = Some (VInt d))
    (Hdummy : match dummy_scans with Some u => (0 <= u)%Z | None => True end) :
  exists w outs,
    init_raw_boldref_wf bold_file multiecho nm = Ok w
    /\ run collab
         (set_wf_input w "inputnode" "dummy_scans"
            match dummy_scans with Some u => VInt u | None => VNone end)
       = Ok outs
    /\ lookup "skip_vols" outs
       = Some (VInt match dummy_scans with Some u => u | None => d end)
    /\ lookup "algo_dummy_scans" outs = Some (VInt d).
Proof.
  rewrite (init_raw_boldref_wf_eq _ _ _ Hnm).
  exists (boldref_wf bold_file multiecho nm).
  enough (H : exists outs,
            run collab (set_wf_input (boldref_wf bold_file multiecho nm)
                          "inputnode" "dummy_scans"
                          match dummy_scans with Some u => VInt u | None => VNone end)
            = Ok outs
            /\ lookup "skip_vols" outs
               = Some (VInt match dummy_scans with Some u => u | None => d end)
            /\ lookup "algo_dummy_scans" outs = Some (VInt d))
    by (destruct H as [outs Ho]; exists outs; split; [reflexivity | exact Ho]).
  unfold run; rewrite boldref_wf_input_edges.
  destruct dummy_scans as [[|u|u]|]; [| | lia |].
  all: lazy in Hdet; destruct bold_file; lazy; rewrite ?Hdet; lazy;
       split_lookups collab.
  all: eexists; split; [reflexivity | split; reflexivity].
Qed.

Lemma algo_dummy_scans_reported_witness :
  valid_name "raw_boldref_wf" = true
  /\ (forall ins, lookup "n_dummy" (scenario_collab NonsteadyStatesDetector ins)
                  = Some (VInt 4))
  /\ exists w outs,
    init_raw_boldref_wf (Some "scan.ext") false "raw_boldref_wf" = Ok w
    /\ run scenario_collab (set_wf_input w "inputnode" "dummy_scans" VNone) = Ok outs
    /\ lookup "skip_vols" outs = Some (VInt 4)
    /\ lookup "algo_dummy_scans" outs = Some (VInt 4).
Proof.
  split; [reflexivity |]. split; [reflexivity |].
  exact (algo_dummy_scans_reported scenario_collab (Some "scan.ext") false
           "raw_boldref_wf" 4 None eq_refl (fun ins => eq_refl) I).
Defined.

(** ** Properties of the workflow machinery *)

Lemma mem_str_In (x : string) (l : list string) : mem_str x l = true <-> In x l.
Proof.
  unfold mem_str. rewrite existsb_exists. split.
  - intros [y [Hy Heq]]. apply String.eqb_eq in Heq. subst. exact Hy.
  - intros H. exists x. split; [exact H | apply String.eqb_refl].
Qed.

Lemma new_nodes_known (graph acc : list node) (cs : list connection) :
  (forall c, In c cs -> has_node graph (fst (fst c)) = true
                        /\ has_node graph (snd (fst c)) = true) ->
  new_nodes graph acc cs = acc.
Proof.
  revert acc; induction cs as [| [[s d] ps] cs IH]; intros acc H; [reflexivity |].
  simpl. destruct (H (s, d, ps) (or_introl eq_refl)) as [Hs Hd]; simpl in Hs, Hd.
  rewrite Hs, Hd, !orb_true_r. apply IH. intros c Hc. apply H. right. exact Hc.
Qed.

Lemma add_graph_node_extends (wf : string) (n : node) (ns : list node) :
  exists ns', add_graph_node wf n ns = ns ++ ns'.
Proof.
  unfold add_graph_node. destruct (has_node ns n).
  - exists []. rewrite app_nil_r. reflexivity.
  - eexists. reflexivity.
Qed.

Lemma fold_add_connection_extends (cs : list connection) (w : workflow) :
  wf_name (fold_left add_connection cs w) = wf_name w
  /\ wf_desc (fold_left add_connection cs w) = wf_desc w
  /\ exists ns, wf_nodes (fold_left add_connection cs w) = wf_nodes w ++ ns.
Proof.
  revert w; induction cs as [| [[s d] ps] cs IH]; intros w; simpl.
  - split; [reflexivity | split; [reflexivity |]]. exists []. symmetry. apply app_nil_r.
  - destruct (IH (add_connection w (s, d, ps))) as [Hn [Hd [ns Hns]]].
    simpl in Hn, Hd, Hns.
    split; [exact Hn | split; [exact Hd |]].
    destruct (add_graph_node_extends (wf_name w) s (wf_nodes w)) as [n1 H1].
    destruct (add_graph_node_extends (wf_name w) d (wf_nodes w ++ n1)) as [n2 H2].
    exists (n1 ++ n2 ++ ns). rewrite Hns, H1, H2, !app_assoc. reflexivity.
Qed.

Lemma oid_set_hierarchy (wf : string) (n : node) : oid (set_hierarchy wf n) = oid n.
Proof. unfold set_hierarchy. destruct (hierarchy n); reflexivity. Qed.

(** X1: a name nipype refuses ([""], ["a.b"], anything not matching
    [^[\w-]+$]) makes [init_raw_boldref_wf] fail with the name error, as
    [Workflow(name=name)] raises before any node is created. *)
Theorem init_rejects_invalid_name (bold_file : option string) (multiecho : bool)
    (nm : string) (Hnm : valid_name nm = false) :
  init_raw_boldref_wf bold_file multiecho nm = Err (InvalidName nm).
Proof. unfold init_raw_boldref_wf, Workflow. rewrite Hnm. reflexivity. Qed.

Lemma init_rejects_invalid_name_witness :
  valid_name "" = false /\ valid_name "a.b" = false
  /\ init_raw_boldref_wf None false "" = Err (InvalidName "")
  /\ init_raw_boldref_wf (Some "scan.ext") true "a.b" = Err (InvalidName "a.b").
Proof.
  split; [reflexivity |]. split; [reflexivity |].
  split; [exact (init_rejects_invalid_name None false "" eq_refl) |].
  exact (init_rejects_invalid_name (Some "scan.ext") true "a.b" eq_refl).
Defined.

(** X2: in every graph built under a valid name the node names are
    distinct, and every edge leaves a port its source node declares as an
    output and enters a port its destination node declares as an input. *)
Theorem boldref_edges_well_typed (bold_file : option string) (multiecho : bool)
    (nm : string) (Hnm : valid_name nm = true) :
  exists w,
    init_raw_boldref_wf bold_file multiecho nm = Ok w
    /\ NoDup (map name (wf_nodes w))
    /\ forall e, In e (wf_edges w) ->
         exists s d, find_node (src e) w = Some s /\ find_node (dst e) w = Some d
                     /\ In (src_port e) (output_ports (iface s))
                     /\ In (dst_port e) (input_ports (iface d)).
Proof.
  rewrite (init_raw_boldref_wf_eq _ _ _ Hnm). eexists; split; [reflexivity |]. split.
  - simpl. repeat constructor; simpl; intuition discriminate.
  - rewrite boldref_wf_edges. intros e He; simpl in He.
    repeat (destruct He as [<- | He];
            [do 2 eexists; split; [reflexivity |]; split; [reflexivity |];
             simpl; tauto |]).
    contradiction.
Qed.

Lemma boldref_edges_well_typed_witness :
  valid_name "raw_boldref_wf" = true
  /\ exists w,
    init_raw_boldref_wf (Some "scan.ext") false "raw_boldref_wf" = Ok w
    /\ NoDup (map name (wf_nodes w))
    /\ forall e, In e (wf_edges w) ->
         exists s d, find_node (src e) w = Some s /\ find_node (dst e) w = Some d
                     /\ In (src_port e) (output_ports (iface s))
                     /\ In (dst_port e) (input_ports (iface d)).
Proof.
  split; [reflexivity |].
  exact (boldref_edges_well_typed (Some "scan.ext") false "raw_boldref_wf" eq_refl).
Defined.

(** X3: in every graph built under a valid name the nodes are listed in a
    topological order: both ends of every edge are nodes of the graph and
    the source comes strictly before the destination. *)
Theorem boldref_nodes_topological (bold_file : option string) (multiecho : bool)
    (nm : string) (Hnm : valid_name nm = true) :
  exists w,
    init_raw_boldref_wf bold_file multiecho nm = Ok w
    /\ forall e, In e (wf_edges w) ->
         In (src e) (map name (wf_nodes w)) /\ In (dst e) (map name (wf_nodes w))
         /\ (index_of (src e) (wf_nodes w) < index_of (dst e) (wf_nodes w))%nat.
Proof.
  rewrite (init_raw_boldref_wf_eq _ _ _ Hnm). eexists; split; [reflexivity |].
  rewrite boldref_wf_edges.
  intros e He. split; [| split; [| exact (boldref_edges_forward bold_file nm e He)]];
    simpl in He; repeat (destruct He as [<- | He]; [simpl; tauto |]); contradiction.
Qed.

Lemma boldref_nodes_topological_witness :
  valid_name "raw_boldref_wf" = true
  /\ exists w,
    init_raw_boldref_wf None true "raw_boldref_wf" = Ok w
    /\ forall e, In e (wf_edges w) ->
         In (src e) (map name (wf_nodes w)) /\ In (dst e) (map name (wf_nodes w))
         /\ (index_of (src e) (wf_nodes w) < index_of (dst e) (wf_nodes w))%nat.
Proof.
  split; [reflexivity |].
  exact (boldref_nodes_topological None true "raw_boldref_wf" eq_refl).
Defined.

(** X4: in a run of any graph built under a valid name, the validator and
    the detector both receive the raw [bold_file] preset as [in_file]
    (nothing when it is unset); the averager receives exactly the
    validator's [out_file] as [in_file] and the detector's [t_mask] (each
    when defined); [outputnode] publishes the validator's [out_file] as
    [bold_file] and the averager's [out_file] as [boldref]. *)
Theorem run_dataflow
    (collab : interface -> list (string * value) -> list (string * value))
    (bold_file : option string) (multiecho : bool) (nm : string)
    (d : Z) (dummy_scans : option Z)
    (Hnm : valid_name nm = true)
    (Hdet : forall ins, lookup "n_dummy" (collab NonsteadyStatesDetector ins)
                        = Some (VInt d))
    (Hdummy : match dummy_scans with Some u => (0 <= u)%Z | None => True end) :
  let raw := match bold_file with Some f => [("in_file", VStr f)] | None => [] end in
  let avg_ins :=
    opt_assign "t_mask" (lookup "t_mask" (collab NonsteadyStatesDetector raw))
      (opt_assign "in_file" (lookup "out_file" (collab ValidateImage raw)) []) in
  exists w outs,
    init_raw_boldref_wf bold_file multiecho nm = Ok w
    /\ run collab
         (set_wf_input w "inputnode" "dummy_scans"
            match dummy_scans with Some u => VInt u | None => VNone end)
       = Ok outs
    /\ lookup "bold_file" outs = lookup "out_file" (collab ValidateImage raw)
    /\ lookup "boldref" outs = lookup "out_file" (collab RobustAverage avg_ins).
Proof.
  intros raw avg_ins. subst raw avg_ins.
  rewrite (init_raw_boldref_wf_eq _ _ _ Hnm).
  exists (boldref_wf bold_file multiecho nm).
  unfold run; rewrite boldref_wf_input_edges.
  destruct dummy_scans as [[|u|u]|]; [| | lia |].
  all: lazy in Hdet; destruct bold_file; lazy; rewrite ?Hdet; lazy;
       split_lookups collab.
  all: eexists; split; [reflexivity | split; [reflexivity | split; reflexivity]].
Qed.

Lemma run_dataflow_witness :
  valid_name "raw_boldref_wf" = true
  /\ (forall ins, lookup "n_dummy" (scenario_collab NonsteadyStatesDetector ins)
                  = Some (VInt 4))
  /\ exists w outs,
    init_raw_boldref_wf (Some "scan.ext") false "raw_boldref_wf" = Ok w
    /\ run scenario_collab (set_wf_input w "inputnode" "dummy_scans" VNone) = Ok outs
    /\ lookup "bold_file" outs = Some (VStr "scan_valid.ext")
    /\ lookup "boldref" outs = Some (VStr "scan_ref.ext").
Proof.
  split; [reflexivity |]. split; [reflexivity |].
  exact (run_dataflow scenario_collab (Some "scan.ext") false "raw_boldref_wf"
           4 None eq_refl (fun ins => eq_refl) I).
Defined.

(** X5: [Workflow.connect] fails with the already-connected error when the
    first pair of the list targets a port of a destination node the graph
    already binds, whatever follows in the list as long as it brings in no
    new node. *)
Theorem connect_rejects_bound_port (w : workflow) (s d : node) (sp dp : string)
    (ps : list (string * string)) (cs : list connection)
    (Hs : has_node (wf_nodes w) s = true) (Hd : has_node (wf_nodes w) d = true)
    (Hcs : forall c, In c cs -> has_node (wf_nodes w) (fst (fst c)) = true
                                /\ has_node (wf_nodes w) (snd (fst c)) = true)
    (Hdp : In dp (graph_in_ports w d)) :
  connect w ((s, d, (sp, dp) :: ps) :: cs) = Err (AlreadyConnected (name d) dp).
Proof.
  unfold connect.
  rewrite new_nodes_known.
  - simpl. apply mem_str_In in Hdp. rewrite Hdp. reflexivity.
  - intros c [<- | Hc]; [split; assumption | exact (Hcs c Hc)].
Qed.

Lemma connect_rejects_bound_port_witness :
  let i := mkNode 1 "src_node" (IdentityInterface ["x"]) [] NODE_DEFAULT_MEM_GB false (Some "ex") in
  let o := mkNode 2 "dst_node" ValidateImage [] NODE_DEFAULT_MEM_GB false (Some "ex") in
  let w := mkWorkflow "ex" None [i; o] [(1, 2, [("x", "in_file")])]%nat in
  In "in_file" (graph_in_ports w o)
  /\ connect w [(i, o, [("x", "in_file")])] = Err (AlreadyConnected "dst_node" "in_file").
Proof.
  intros i o w. split; [simpl; tauto |].
  refine (connect_rejects_bound_port w i o "x" "in_file" [] [] eq_refl eq_refl _ _).
  - intros c [].
  - simpl; tauto.
Defined.

(** X6: [Workflow.connect] does not check the ports of [IdentityInterface]
    and [Function] nodes: connecting two such fresh nodes of distinct names
    into a new workflow succeeds for any port names, adds both nodes
    stamped with the workflow's name, and records the one connection. *)
Theorem connect_skips_iobase_ports (nm : string) (w : workflow) (s d : node)
    (sp dp : string)
    (Hw : Workflow nm = Ok w) (Hid : oid s <> oid d) (Hname : name s <> name d)
    (Hsi : port_checked (iface s) = false) (Hdi : port_checked (iface d) = false) :
  connect w [(s, d, [(sp, dp)])]
  = Ok (mkWorkflow nm None [set_hierarchy nm s; set_hierarchy nm d]
          [(oid s, oid d, [(sp, dp)])]).
Proof.
  unfold Workflow in Hw. destruct (valid_name nm); inversion Hw; subst w. clear Hw.
  unfold connect; cbn -[set_hierarchy].
  unfold has_node, node_eqb; cbn.
  apply not_eq_sym in Hid. apply Nat.eqb_neq in Hid. rewrite Hid. cbn.
  apply not_eq_sym in Hname. apply String.eqb_neq in Hname. rewrite Hname. cbn.
  rewrite Hsi, Hdi. cbn.
  unfold add_graph_node, has_node, node_eqb; cbn.
  rewrite oid_set_hierarchy, Hid. reflexivity.
Qed.

Lemma connect_skips_iobase_ports_witness :
  let a := mkNode 1 "a" (IdentityInterface ["x"]) [] NODE_DEFAULT_MEM_GB false None in
  let b := mkNode 2 "b" (FunctionInterface "f" ["y"] ["z"]) [] NODE_DEFAULT_MEM_GB false None in
  (exists w, Workflow "ex" = Ok w
             /\ connect w [(a, b, [("undeclared", "also_undeclared")])]
                = Ok (mkWorkflow "ex" None [set_hierarchy "ex" a; set_hierarchy "ex" b]
                        [(1, 2, [("undeclared", "also_undeclared")])]%nat)).
Proof.
  intros a b. exists (mkWorkflow "ex" None [] []). split; [reflexivity |].
  refine (connect_skips_iobase_ports "ex" _ a b "undeclared" "also_undeclared"
            eq_refl _ _ eq_refl eq_refl).
  - discriminate.
  - discriminate.
Defined.

(** X7: [Workflow.connect] fails with the duplicate-node-name error when the
    list brings two distinct node objects of the same name into a new
    workflow. *)
Theorem connect_rejects_duplicate_name (nm : string) (w : workflow) (a b : node)
    (ps : list (string * string))
    (Hw : Workflow nm = Ok w) (Hid : oid a <> oid b) (Hname : name a = name b) :
  connect w [(a, b, ps)] = Err DuplicateNodeName.
Proof.
  unfold Workflow in Hw. destruct (valid_name nm); inversion Hw; subst w. clear Hw.
  unfold connect; cbn. unfold node_eqb.
  apply not_eq_sym in Hid. apply Nat.eqb_neq in Hid. rewrite Hid. cbn.
  rewrite Hname, String.eqb_refl. reflexivity.
Qed.

Lemma connect_rejects_duplicate_name_witness :
  let a := mkNode 1 "node" (IdentityInterface ["x"]) [] NODE_DEFAULT_MEM_GB false None in
  let b := mkNode 2 "node" (IdentityInterface ["x"]) [] NODE_DEFAULT_MEM_GB false None in
  exists w, Workflow "ex" = Ok w
            /\ connect w [(a, b, [("x", "x")])] = Err DuplicateNodeName.
Proof.
  intros a b. exists (mkWorkflow "ex" None [] []). split; [reflexivity |].
  refine (connect_rejects_duplicate_name "ex" _ a b [("x", "x")] eq_refl _ eq_refl).
  discriminate.
Defined.

(** X8: a successful [Workflow.connect] keeps the workflow's name and
    description, and keeps its nodes in order, possibly followed by newly
    added ones. *)
Theorem connect_extends (w w' : workflow) (cs : list connection)
    (H : connect w cs = Ok w') :
  wf_name w' = wf_name w /\ wf_desc w' = wf_desc w
  /\ exists ns, wf_nodes w' = wf_nodes w ++ ns.
Proof.
  unfold connect in H.
  destruct (check_nodes _ _ _ _); [| discriminate]. simpl in H.
  destruct (check_connections w [] [] cs) as [[|m nf]|]; simpl in H; try discriminate.
  inversion H; subst w'. apply fold_add_connection_extends.
Qed.

Lemma connect_extends_witness :
  let v := mkNode 3 "val_bold" ValidateImage [] DEFAULT_MEMORY_MIN_GB false
             (Some "raw_boldref_wf") in
  let x := mkNode 7 "extra" (IdentityInterface ["x"]) [] NODE_DEFAULT_MEM_GB false None in
  let w' := mkWorkflow "raw_boldref_wf" (Some (boldref_desc false))
              (boldref_nodes None "raw_boldref_wf" ++ [set_hierarchy "raw_boldref_wf" x])
              (boldref_graph ++ [(3, 7, [("out_file", "x")])])%nat in
  connect (boldref_wf None false "raw_boldref_wf") [(v, x, [("out_file", "x")])] = Ok w'
  /\ wf_name w' = "raw_boldref_wf"
  /\ wf_desc w' = Some (boldref_desc false)
  /\ exists ns, wf_nodes w' = boldref_nodes None "raw_boldref_wf" ++ ns.
Proof.
  intros v x w'.
  assert (H : connect (boldref_wf None false "raw_boldref_wf")
                [(v, x, [("out_file", "x")])] = Ok w') by (vm_compute; reflexivity).
  split; [exact H |].
  exact (connect_extends (boldref_wf None false "raw_boldref_wf") w' _ H).
Defined.
